(** * Moola Settings form scripts

    A shallow embedding of the two client scripts that customise the
    "Moola Settings" form:

    - [moola_settings.js], which adds the "Sync Now" button, and
    - the "Sync From Date" script, which adds a button that prompts for a
      start date and an optional flag before calling the server.

    The scripts are glue over the host framework.  Every framework call they
    make ([frm.add_custom_button], [frappe.prompt], [frappe.call],
    [frappe.msgprint], [frm.reload_doc], [addClass]) is recorded, in program
    order, in a trace of commands; the closures handed to the framework
    (click handlers, prompt and response callbacks) are kept inside the
    commands as functions, so that a click, a confirmation or a server
    response can be replayed on them. *)

From Stdlib Require Import ZArith List String Ascii Bool DecimalString.
Import ListNotations.
Local Open Scope string_scope.
Local Open Scope Z_scope.

#[local] Set Warnings "-register-all".

(** ** JavaScript values *)

Module Js.

(** The values that flow through the scripts.  Numbers are the integers
    (flags and counters are integral) and [NaN]; an object is its list of
    own properties in insertion order. *)
Inductive value : Type :=
| Undefined
| Null
| Boolean (b : bool)
| Number (n : Z)
| NaN
| Str (s : string)
| Object (props : list (string * value)).

Definition object : Type := list (string * value).

(** [ToBoolean]: what [if], [!], [? :] and [||] test. *)
Definition to_boolean (v : value) : bool :=
  match v with
  | Undefined | Null | NaN => false
  | Boolean b => b
  | Number n => negb (n =? 0)
  | Str s => negb (s =? "")%string
  | Object _ => true
  end.

(** [o.k] on an object: the value of the own property [k], [undefined]
    when absent (none of the names the scripts read is inherited). *)
Fixpoint lookup (k : string) (o : object) : value :=
  match o with
  | [] => Undefined
  | (k', v) :: o' => if (k' =? k)%string then v else lookup k o'
  end.

(** Property read [v.k] on an arbitrary value.  Reading from [undefined] or
    [null] throws a TypeError ([None]); the other primitives have none of
    the property names the scripts read, so the read gives [undefined]. *)
Definition get (v : value) (k : string) : option value :=
  match v with
  | Undefined | Null => None
  | Object o => Some (lookup k o)
  | _ => Some Undefined
  end.

(** [a || b] *)
Definition or (a b : value) : value :=
  if to_boolean a then a else b.

(** [String(v)], as string replacement applies it to a substituted value. *)
Definition to_string (v : value) : string :=
  match v with
  | Undefined => "undefined"
  | Null => "null"
  | Boolean true => "true"
  | Boolean false => "false"
  | Number n => NilEmpty.string_of_int (Z.to_int n)
  | NaN => "NaN"
  | Str s => s
  | Object _ => "[object Object]"
  end.

Definition is_boolean (v : value) : bool :=
  match v with
  | Boolean _ => true
  | _ => false
  end.

End Js.

(** ** The host framework, as seen from the scripts *)

(** What a click handler can read from its surroundings when it runs:
    [frappe.datetime.get_today()]. *)
Record World : Type := { get_today : string }.

(** One framework call.  A closure runs to a trace of further calls and
    either returns ([Some tt]) or throws ([None]). *)
Inductive Cmd : Type :=
| AddCustomButton (label : string) (handler : World -> list Cmd * option unit)
| AddClass (button : string) (cls : string)
| Prompt (fields : list Js.object)
         (callback : Js.object -> list Cmd * option unit)
         (title primary_label : string)
| Call (method : string) (args : option Js.object)
       (freeze : Js.value) (freeze_message : option string)
       (callback : Js.object -> list Cmd * option unit)
| Msgprint (msg : Js.value)
| ReloadDoc.

(** Script code: the framework calls made so far, and the value returned
    unless an exception cut the code short. *)
Definition M (A : Type) : Type := (list Cmd * option A)%type.

Definition ret {A} (a : A) : M A := ([], Some a).

Definition bind {A B} (m : M A) (f : A -> M B) : M B :=
  match m with
  | (t, Some a) => let (t', r) := f a in ((t ++ t')%list, r)
  | (t, None) => (t, None)
  end.

Definition throw {A} : M A := ([], None).

Definition emit (c : Cmd) : M unit := ([c], Some tt).

Notation "x <- m ;; k" := (bind m (fun x => k))
  (at level 61, m at next level, right associativity).
Notation "m ;; k" := (bind m (fun _ => k))
  (at level 61, right associativity).

Definition trace {A} (m : M A) : list Cmd := fst m.
Definition result {A} (m : M A) : option A := snd m.

Definition Closure (A : Type) : Type := A -> M unit.

(** Framework services whose results the scripts pass on: the translator
    [__(text, replace)] (message catalogue lookup, then positional
    formatting when [replace] is given) and [frappe.datetime.add_days]. *)
Class Frappe : Type :=
  { translate : string -> option (list Js.value) -> string;
    add_days : string -> Z -> string }.

(** The form handed to [refresh]: the answer of [frm.is_new()] and the
    document [frm.doc]. *)
Record Form : Type := { is_new : Js.value; doc : Js.object }.

(** [frm.add_custom_button(label, handler)] returns the button. *)
Definition add_custom_button (label : string) (handler : Closure World)
  : M string :=
  emit (AddCustomButton label handler) ;; ret label.

Definition addClass (button : string) (cls : string) : M unit :=
  emit (AddClass button cls).

Definition frappe_prompt (fields : list Js.object)
    (callback : Closure Js.object) (title primary_label : string) : M unit :=
  emit (Prompt fields callback title primary_label).

Definition frappe_call (method : string) (args : option Js.object)
    (freeze : Js.value) (freeze_message : option string)
    (callback : Closure Js.object) : M unit :=
  emit (Call method args freeze freeze_message callback).

Definition frappe_msgprint (msg : Js.value) : M unit := emit (Msgprint msg).

(** [frm.reload_doc()] *)
Definition reload_doc (frm : Form) : M unit := emit ReloadDoc.

(** A property read that throws where JavaScript does. *)
Definition get_prop (v : Js.value) (k : string) : M Js.value :=
  match Js.get v k with
  | Some x => ret x
  | None => throw
  end.

(** [frappe.ui.form.on(doctype, { refresh })] *)
Record FormScript : Type :=
  { doctype : string; refresh_handler : Form -> M unit }.

(** *** Observing a trace *)

(** Labels of the buttons a trace adds. *)
Fixpoint buttons (t : list Cmd) : list string :=
  match t with
  | [] => []
  | AddCustomButton l _ :: t' => l :: buttons t'
  | _ :: t' => buttons t'
  end.

Definition has_button (l : string) (t : list Cmd) : bool :=
  existsb (String.eqb l) (buttons t).

(** What message boxes a trace shows, in order. *)
Fixpoint displayed (t : list Cmd) : list Js.value :=
  match t with
  | [] => []
  | Msgprint m :: t' => m :: displayed t'
  | _ :: t' => displayed t'
  end.

(** Every command a trace can lead to: the ones it holds, and the ones its
    closures make when the user clicks a button in some world, confirms a
    prompt with some values, or the server answers a call. *)
Inductive issues : list Cmd -> Cmd -> Prop :=
| issues_now t c :
    In c t -> issues t c
| issues_click t l h w c :
    In (AddCustomButton l h) t -> issues (fst (h w)) c -> issues t c
| issues_confirm t fs cb ti pl values c :
    In (Prompt fs cb ti pl) t -> issues (fst (cb values)) c -> issues t c
| issues_response t m a f fm cb r c :
    In (Call m a f fm cb) t -> issues (fst (cb r)) c -> issues t c.

(** What a single command leads to when its closure runs. *)
Definition leads_to (c0 c : Cmd) : Prop :=
  match c0 with
  | AddCustomButton _ h => exists w, issues (fst (h w)) c
  | Prompt _ cb _ _ => exists values, issues (fst (cb values)) c
  | Call _ _ _ _ cb => exists r, issues (fst (cb r)) c
  | AddClass _ _ | Msgprint _ | ReloadDoc => False
  end.

(** *** Replaying the interaction *)

(** The user clicks the first button labelled [l]. *)
Fixpoint click (l : string) (w : World) (t : list Cmd) : option (M unit) :=
  match t with
  | [] => None
  | AddCustomButton l' h :: t' =>
      if (l' =? l)%string then Some (h w) else click l w t'
  | _ :: t' => click l w t'
  end.

(** The user fills in the open prompt and confirms it. *)
Fixpoint confirm (values : Js.object) (t : list Cmd) : option (M unit) :=
  match t with
  | [] => None
  | Prompt _ cb _ _ :: _ => Some (cb values)
  | _ :: t' => confirm values t'
  end.

(** The server answers the call in flight. *)
Fixpoint respond (r : Js.object) (t : list Cmd) : option (M unit) :=
  match t with
  | [] => None
  | Call _ _ _ _ cb :: _ => Some (cb r)
  | _ :: t' => respond r t'
  end.

(** The prompts a trace opens: their field lists. *)
Fixpoint prompts (t : list Cmd) : list (list Js.object) :=
  match t with
  | [] => []
  | Prompt fs _ _ _ :: t' => fs :: prompts t'
  | _ :: t' => prompts t'
  end.

(** The request part of a remote call. *)
Record Request : Type :=
  { req_method : string;
    req_args : option Js.object;
    req_freeze : Js.value;
    req_freeze_message : option string }.

Definition request_of (c : Cmd) : option Request :=
  match c with
  | Call m a f fm _ =>
      Some {| req_method := m; req_args := a;
              req_freeze := f; req_freeze_message := fm |}
  | _ => None
  end.

(** The remote calls a trace makes, in order. *)
Fixpoint requests (t : list Cmd) : list Request :=
  match t with
  | [] => []
  | c :: t' =>
      match request_of c with
      | Some q => q :: requests t'
      | None => requests t'
      end
  end.

(** Whether a trace reloads the document. *)
Definition reloads (t : list Cmd) : bool :=
  existsb (fun c => match c with ReloadDoc => true | _ => false end) t.

(** The keys of an object. *)
Definition keys (o : Js.object) : list string := map fst o.

(** The classes a trace adds to the button [b]. *)
Fixpoint classes (b : string) (t : list Cmd) : list string :=
  match t with
  | [] => []
  | AddClass b' cls :: t' =>
      if (b' =? b)%string then cls :: classes b t' else classes b t'
  | _ :: t' => classes b t'
  end.


(** ** moola_settings.js: Sync Now *)

Module SyncNow.

(** [(r) => frappe.msgprint(r.message || "Done")] *)
Definition callback (r : Js.object) : M unit :=
  frappe_msgprint (Js.or (Js.lookup "message" r) (Js.Str "Done")).

(** The click handler of the button. *)
Definition on_click (_ : World) : M unit :=
  frappe_call "moola_integration.api.sync_now" None
              (Js.Boolean true) None callback.

Definition refresh (frm : Form) : M unit :=
  if negb (Js.to_boolean (is_new frm))
     && Js.to_boolean (Js.lookup "enabled" (doc frm))
  then add_custom_button "Sync Now" on_click ;; ret tt
  else ret tt.

Definition script : FormScript :=
  {| doctype := "Moola Settings"; refresh_handler := refresh |}.

End SyncNow.

(** ** The Sync From Date script *)

Module SyncFromDate.

Section Script.

Context {frappe : Frappe}.

(** The response callback of the remote call. *)
Definition callback (frm : Form) (r : Js.object) : M unit :=
  let message := Js.lookup "message" r in
  if Js.to_boolean message then
    fetched <- get_prop message "fetched" ;;
    created <- get_prop message "created" ;;
    skipped <- get_prop message "skipped" ;;
    errors <- get_prop message "errors" ;;
    frappe_msgprint
      (Js.Str
         (translate
            "Sync complete.<br>Fetched: {0}<br>Created JE: {1}<br>Skipped: {2}<br>Errors: {3}"
            (Some [fetched; created; skipped; errors]))) ;;
    reload_doc frm
  else ret tt.

(** The argument mapping of the remote call. *)
Definition call_args (values : Js.object) : Js.object :=
  [ ("from_date", Js.lookup "from_date" values);
    ("advance_cursor",
     if Js.to_boolean (Js.lookup "advance_cursor" values)
     then Js.Number 1 else Js.Number 0) ].

(** The prompt callback: [(values) => frappe.call({...})]. *)
Definition on_confirm (frm : Form) (values : Js.object) : M unit :=
  frappe_call "moola_integration.api.sync_from_date"
    (Some (call_args values))
    (Js.Boolean true)
    (Some (translate "Syncing from {0}…"
                     (Some [Js.lookup "from_date" values])))
    (callback frm).

(** The two fields of the prompt, built when the button is clicked. *)
Definition prompt_fields (w : World) : list Js.object :=
  [ [ ("fieldname", Js.Str "from_date");
      ("fieldtype", Js.Str "Date");
      ("label", Js.Str "From Date");
      ("reqd", Js.Number 1);
      ("default", Js.Str (add_days (get_today w) (-7))) ];
    [ ("fieldname", Js.Str "advance_cursor");
      ("fieldtype", Js.Str "Check");
      ("label", Js.Str "Advance Cursor if Successful (optional)");
      ("default", Js.Number 0) ] ].

(** The click handler of the button. *)
Definition on_click (frm : Form) (w : World) : M unit :=
  frappe_prompt (prompt_fields w) (on_confirm frm)
                (translate "Sync From Date" None)
                (translate "Run" None).

Definition refresh (frm : Form) : M unit :=
  if negb (Js.to_boolean (is_new frm)) then
    button <- add_custom_button (translate "Sync From Date" None)
                                (on_click frm) ;;
    addClass button "btn-primary"
  else ret tt.

Definition script : FormScript :=
  {| doctype := "Moola Settings"; refresh_handler := refresh |}.

End Script.

End SyncFromDate.

(** ** Sessions

    The scripts driven through a whole interaction: the form is refreshed,
    the user clicks the button, confirms the prompt, the server answers.
    [None] when the step is not on offer (no such button, no open prompt,
    no call in flight). *)

Definition and_then {A B} (o : option A) (f : A -> option B) : option B :=
  match o with
  | Some a => f a
  | None => None
  end.

Module SyncNowSession.

Definition clicked (frm : Form) (w : World) : option (M unit) :=
  click "Sync Now" w (trace (SyncNow.refresh frm)).

Definition answered (frm : Form) (w : World) (r : Js.object)
  : option (M unit) :=
  and_then (clicked frm w) (fun m => respond r (trace m)).

End SyncNowSession.

Module SyncFromDateSession.

Section Session.

Context {frappe : Frappe}.

Definition clicked (frm : Form) (w : World) : option (M unit) :=
  click (translate "Sync From Date" None) w
        (trace (SyncFromDate.refresh frm)).

Definition confirmed (frm : Form) (w : World) (values : Js.object)
  : option (M unit) :=
  and_then (clicked frm w) (fun m => confirm values (trace m)).

Definition answered (frm : Form) (w : World) (values r : Js.object)
  : option (M unit) :=
  and_then (confirmed frm w values) (fun m => respond r (trace m)).

End Session.

End SyncFromDateSession.

(** ** A reference framework

    A stand-in for the framework services, to run the scripts on concrete
    inputs: a translator with an empty message catalogue and a calendar.
    The theorems below hold for every [Frappe]. *)

Module Reference.

Definition digit_of (c : ascii) : option nat :=
  let n := nat_of_ascii c in
  if ((48 <=? n) && (n <=? 57))%nat then Some (n - 48)%nat else None.

(** Positional formatting: [{i}], for a decimal digit [i], becomes the
    [i]-th replacement when that is defined and stays as it is otherwise. *)
Fixpoint format (txt : string) (replace : list Js.value) : string :=
  match txt with
  | EmptyString => EmptyString
  | String c rest =>
      match c, rest with
      | "{"%char, String d (String "}"%char rest') =>
          match digit_of d with
          | Some i =>
              match nth_error replace i with
              | Some Js.Undefined | None =>
                  String c (String d (String "}" (format rest' replace)))
              | Some v => (Js.to_string v ++ format rest' replace)%string
              end
          | None => String c (format rest replace)
          end
      | _, _ => String c (format rest replace)
      end
  end.

Definition translate (txt : string) (replace : option (list Js.value))
  : string :=
  match replace with
  | Some args => format txt args
  | None => txt
  end.

(** Days since 1970-01-01 of a civil date, and back. *)
Definition days_from_civil (y m d : Z) : Z :=
  let y' := if m <=? 2 then y - 1 else y in
  let era := y' / 400 in
  let yoe := y' - era * 400 in
  let doy := (153 * (if m >? 2 then m - 3 else m + 9) + 2) / 5 + d - 1 in
  let doe := yoe * 365 + yoe / 4 - yoe / 100 + doy in
  era * 146097 + doe - 719468.

Definition civil_from_days (z : Z) : Z * Z * Z :=
  let z' := z + 719468 in
  let era := z' / 146097 in
  let doe := z' - era * 146097 in
  let yoe := (doe - doe / 1460 + doe / 36524 - doe / 146096) / 365 in
  let doy := doe - (365 * yoe + yoe / 4 - yoe / 100) in
  let mp := (5 * doy + 2) / 153 in
  let d := doy - (153 * mp + 2) / 5 + 1 in
  let m := if mp <? 10 then mp + 3 else mp - 9 in
  let y := yoe + era * 400 in
  ((if m <=? 2 then y + 1 else y), m, d).

Fixpoint number_of (s : string) (acc : Z) : option Z :=
  match s with
  | EmptyString => Some acc
  | String c s' =>
      match digit_of c with
      | Some i => number_of s' (10 * acc + Z.of_nat i)
      | None => None
      end
  end.

(** ["YYYY-MM-DD"] to year, month and day. *)
Definition parse_date (s : string) : option (Z * Z * Z) :=
  if (String.length s =? 10)%nat
     && (substring 4 1 s =? "-")%string && (substring 7 1 s =? "-")%string
  then
    match number_of (substring 0 4 s) 0,
          number_of (substring 5 2 s) 0,
          number_of (substring 8 2 s) 0 with
    | Some y, Some m, Some d => Some (y, m, d)
    | _, _, _ => None
    end
  else None.

Definition pad (width : nat) (n : Z) : string :=
  let s := NilEmpty.string_of_int (Z.to_int n) in
  (concat "" (repeat "0" (width - String.length s)) ++ s)%string.

Definition format_date (ymd : Z * Z * Z) : string :=
  let '(y, m, d) := ymd in
  (pad 4 y ++ "-" ++ pad 2 m ++ "-" ++ pad 2 d)%string.

Definition add_days (date : string) (n : Z) : string :=
  match parse_date date with
  | Some (y, m, d) => format_date (civil_from_days (days_from_civil y m d + n))
  | None => "Invalid date"
  end.

#[export] Instance frappe : Frappe := Build_Frappe translate add_days.

End Reference.

(** ** Sample inputs *)

Module Sample.

Definition saved_enabled : Form :=
  {| is_new := Js.Undefined; doc := [("enabled", Js.Number 1)] |}.

Definition saved_disabled : Form :=
  {| is_new := Js.Undefined; doc := [("enabled", Js.Number 0)] |}.

Definition unsaved : Form :=
  {| is_new := Js.Number 1; doc := [("enabled", Js.Number 1)] |}.

Definition world : World := {| get_today := "2024-01-08" |}.

Definition unchecked : Js.object :=
  [("from_date", Js.Str "2024-01-01"); ("advance_cursor", Js.Number 0)].

Definition checked : Js.object :=
  [("from_date", Js.Str "2024-01-01"); ("advance_cursor", Js.Number 1)].

Definition counters : Js.object :=
  [("message",
    Js.Object [("fetched", Js.Number 10); ("created", Js.Number 8);
               ("skipped", Js.Number 1); ("errors", Js.Number 1)])].

Definition all_good : Js.object := [("message", Js.Str "All good")].

Definition no_message : Js.object := [].

Definition empty_message : Js.object := [("message", Js.Str "")].

Definition text_payload : Js.object := [("message", Js.Str "ok")].

Definition partial_payload : Js.object :=
  [("message", Js.Object [("fetched", Js.Number 3)])].

Definition with_extra_keys : Js.object :=
  [("note", Js.Str "x"); ("from_date", Js.Str "2024-02-29");
   ("advance_cursor", Js.Boolean true)].

End Sample.

(** * Properties *)

(** ** Values *)

Lemma or_truthy (a b : Js.value) :
  Js.to_boolean a = true -> Js.or a b = a.
Proof. intros H. unfold Js.or. now rewrite H. Qed.

Lemma or_falsy (a b : Js.value) :
  Js.to_boolean a = false -> Js.or a b = b.
Proof. intros H. unfold Js.or. now rewrite H. Qed.

Lemma nonempty_truthy (s : string) :
  s <> "" -> Js.to_boolean (Js.Str s) = true.
Proof.
  intros H. simpl. destruct (String.eqb_spec s ""); [contradiction | reflexivity].
Qed.

(** A truthy value is neither [undefined] nor [null], so reading a property
    of it does not throw. *)
Lemma get_truthy (v : Js.value) (k : string) :
  Js.to_boolean v = true -> exists x, Js.get v k = Some x.
Proof.
  destruct v; simpl; intros H; try discriminate; eauto.
Qed.

(** The falsy values are exactly these. *)
Lemma falsy_values (v : Js.value) :
  Js.to_boolean v = false <->
  In v [Js.Undefined; Js.Null; Js.Boolean false; Js.Number 0; Js.NaN;
        Js.Str ""].
Proof.
  split.
  - destruct v as [ | | [] | n | | s | o ]; simpl; intros H;
      try discriminate; auto 7.
    + apply negb_false_iff, Z.eqb_eq in H. subst. auto 7.
    + apply negb_false_iff, String.eqb_eq in H. subst. auto 7.
  - simpl. intros H. decompose [or] H; subst; try reflexivity; contradiction.
Qed.

(** ** Reachable commands *)

Lemma issues_inv (t : list Cmd) (c : Cmd) :
  issues t c -> In c t \/ exists c0, In c0 t /\ leads_to c0 c.
Proof.
  intros H. inversion H; subst; [now left | right ..];
    eexists; (split; [eassumption |]); simpl; eauto.
Qed.

Lemma issues_nil (c : Cmd) : ~ issues [] c.
Proof.
  intros H. apply issues_inv in H.
  destruct H as [[] | (c0 & [] & _)].
Qed.

(** Splits a reachability fact over a trace that is known command by
    command. *)
Ltac issues_cases H :=
  let c0 := fresh "c0" in
  let Hin := fresh "Hin" in
  let Hl := fresh "Hl" in
  apply issues_inv in H;
  destruct H as [Hin | (c0 & Hin & Hl)];
  simpl in Hin;
  repeat match type of Hin with
         | _ \/ _ => destruct Hin as [Hin | Hin]
         end;
  try contradiction; subst; simpl in *; try contradiction.

(** ** Sync Now *)

Lemma sync_now_refresh_cases (frm : Form) :
  SyncNow.refresh frm =
  if negb (Js.to_boolean (is_new frm))
     && Js.to_boolean (Js.lookup "enabled" (doc frm))
  then ([AddCustomButton "Sync Now" SyncNow.on_click], Some tt)
  else ([], Some tt).
Proof.
  unfold SyncNow.refresh.
  destruct (negb _ && _); reflexivity.
Qed.

(** C3: on every refresh, the Sync Now script adds its button exactly when
    the record is saved ([frm.is_new()] falsy) and [frm.doc.enabled] is
    truthy; in every other state the refresh adds no button at all.  The
    refresh always returns normally. *)
Theorem sync_now_button_iff_saved_and_enabled (frm : Form) :
  has_button "Sync Now" (trace (SyncNow.refresh frm)) =
    negb (Js.to_boolean (is_new frm))
    && Js.to_boolean (Js.lookup "enabled" (doc frm))
  /\ buttons (trace (SyncNow.refresh frm)) =
       (if negb (Js.to_boolean (is_new frm))
           && Js.to_boolean (Js.lookup "enabled" (doc frm))
        then ["Sync Now"] else [])
  /\ result (SyncNow.refresh frm) = Some tt.
Proof.
  rewrite sync_now_refresh_cases.
  destruct (negb _ && _); repeat split.
Qed.

Lemma sync_now_answered (frm : Form) (w : World) (r : Js.object) :
  Js.to_boolean (is_new frm) = false ->
  Js.to_boolean (Js.lookup "enabled" (doc frm)) = true ->
  SyncNowSession.answered frm w r = Some (SyncNow.callback r).
Proof.
  intros Hnew Hen.
  unfold SyncNowSession.answered, SyncNowSession.clicked.
  rewrite sync_now_refresh_cases, Hnew, Hen. reflexivity.
Qed.

(** C6, amended: the Sync Now callback shows the server's message text as
    it is when the response carries a non-empty one, and shows exactly
    "Done" when the response carries no message ([r.message] undefined).
    An empty text is not shown as it is but replaced by "Done". *)
Theorem sync_now_displays_message_or_done (r : Js.object) :
  (forall s : string,
      s <> "" ->
      Js.lookup "message" r = Js.Str s ->
      SyncNow.callback r = ([Msgprint (Js.Str s)], Some tt))
  /\ (Js.lookup "message" r = Js.Undefined ->
      SyncNow.callback r = ([Msgprint (Js.Str "Done")], Some tt)).
Proof.
  unfold SyncNow.callback, frappe_msgprint, emit. split.
  - intros s Hs Hm. rewrite Hm, or_truthy; [reflexivity |].
    now apply nonempty_truthy.
  - intros Hm. rewrite Hm. reflexivity.
Qed.

Lemma sync_now_displays_message_or_done_witness :
  ("All good" <> ""
   /\ Js.lookup "message" Sample.all_good = Js.Str "All good"
   /\ SyncNow.callback Sample.all_good
      = ([Msgprint (Js.Str "All good")], Some tt))
  /\ (Js.lookup "message" Sample.no_message = Js.Undefined
      /\ SyncNow.callback Sample.no_message
         = ([Msgprint (Js.Str "Done")], Some tt)).
Proof.
  split.
  - assert (Hne : "All good" <> "") by discriminate.
    split; [exact Hne | split; [reflexivity |]].
    exact (proj1 (sync_now_displays_message_or_done Sample.all_good)
                 "All good" Hne eq_refl).
  - split; [reflexivity |].
    exact (proj2 (sync_now_displays_message_or_done Sample.no_message)
                 eq_refl).
Defined.

(** C6, as first stated, fails on an empty message text: the response
    carries the text [""], yet the callback shows "Done" and not that
    text. *)
Lemma sync_now_empty_text_not_shown :
  Js.lookup "message" Sample.empty_message = Js.Str ""
  /\ SyncNow.callback Sample.empty_message
     = ([Msgprint (Js.Str "Done")], Some tt)
  /\ ~ (forall (r : Js.object) (s : string),
          Js.lookup "message" r = Js.Str s ->
          SyncNow.callback r = ([Msgprint (Js.Str s)], Some tt)).
Proof.
  split; [reflexivity |]. split; [reflexivity |].
  intros H. specialize (H Sample.empty_message "" eq_refl).
  discriminate H.
Qed.

(** C10: whenever [r.message] is falsy, the Sync Now callback shows exactly
    "Done": for the absent message ([undefined]) and just as well for the
    empty string, [0], [null] and [false] (all falsy by [falsy_values]). *)
Theorem sync_now_done_for_every_falsy_message (r : Js.object) :
  Js.to_boolean (Js.lookup "message" r) = false ->
  SyncNow.callback r = ([Msgprint (Js.Str "Done")], Some tt)
  /\ displayed (trace (SyncNow.callback r)) = [Js.Str "Done"].
Proof.
  intros H. unfold SyncNow.callback, frappe_msgprint, emit.
  rewrite (or_falsy _ _ H). split; reflexivity.
Qed.

Lemma sync_now_done_for_every_falsy_message_witness :
  Forall
    (fun v =>
       Js.to_boolean (Js.lookup "message" [("message", v)]) = false
       /\ displayed (trace (SyncNow.callback [("message", v)]))
          = [Js.Str "Done"])
    [Js.Undefined; Js.Str ""; Js.Number 0; Js.Null; Js.Boolean false]
  /\ displayed (trace (SyncNow.callback Sample.no_message))
     = [Js.Str "Done"].
Proof.
  split.
  - repeat constructor;
      exact (proj2 (sync_now_done_for_every_falsy_message _ eq_refl)).
  - exact (proj2 (sync_now_done_for_every_falsy_message
                    Sample.no_message eq_refl)).
Defined.

(** ** Sync From Date *)

Section SyncFromDateFacts.

Context {frappe : Frappe}.

Lemma sync_from_date_refresh_cases (frm : Form) :
  SyncFromDate.refresh frm =
  if negb (Js.to_boolean (is_new frm))
  then ([AddCustomButton (translate "Sync From Date" None)
                         (SyncFromDate.on_click frm);
         AddClass (translate "Sync From Date" None) "btn-primary"],
        Some tt)
  else ([], Some tt).
Proof.
  unfold SyncFromDate.refresh.
  destruct (negb _); reflexivity.
Qed.

Lemma sync_from_date_clicked (frm : Form) (w : World) :
  Js.to_boolean (is_new frm) = false ->
  SyncFromDateSession.clicked frm w = Some (SyncFromDate.on_click frm w).
Proof.
  intros Hnew. unfold SyncFromDateSession.clicked.
  rewrite sync_from_date_refresh_cases, Hnew. simpl.
  now rewrite String.eqb_refl.
Qed.

Lemma sync_from_date_confirmed (frm : Form) (w : World) (values : Js.object) :
  Js.to_boolean (is_new frm) = false ->
  SyncFromDateSession.confirmed frm w values
  = Some (SyncFromDate.on_confirm frm values).
Proof.
  intros Hnew. unfold SyncFromDateSession.confirmed.
  now rewrite sync_from_date_clicked.
Qed.

Lemma sync_from_date_answered (frm : Form) (w : World) (values r : Js.object) :
  Js.to_boolean (is_new frm) = false ->
  SyncFromDateSession.answered frm w values r
  = Some (SyncFromDate.callback frm r).
Proof.
  intros Hnew. unfold SyncFromDateSession.answered.
  now rewrite sync_from_date_confirmed.
Qed.

(** The callback either does nothing or shows one message and reloads. *)
Lemma sync_from_date_callback_cases (frm : Form) (r : Js.object) :
  SyncFromDate.callback frm r = ([], Some tt)
  \/ exists msg, SyncFromDate.callback frm r
                 = ([Msgprint msg; ReloadDoc], Some tt).
Proof.
  unfold SyncFromDate.callback.
  destruct (Js.to_boolean (Js.lookup "message" r)) eqn:Hm; [right | now left].
  unfold get_prop.
  destruct (get_truthy _ "fetched" Hm) as [f ->].
  destruct (get_truthy _ "created" Hm) as [c ->].
  destruct (get_truthy _ "skipped" Hm) as [s ->].
  destruct (get_truthy _ "errors" Hm) as [e ->].
  eexists. reflexivity.
Qed.

(** C4: on every refresh, the Sync From Date script adds its button exactly
    when the record is saved ([frm.is_new()] falsy) and adds no button when
    the record is new; two forms that agree on [is_new] get the same
    buttons, whatever their documents (and so their [enabled]) hold. *)
Theorem sync_from_date_button_iff_saved (frm : Form) :
  buttons (trace (SyncFromDate.refresh frm)) =
    (if Js.to_boolean (is_new frm) then []
     else [translate "Sync From Date" None])
  /\ has_button (translate "Sync From Date" None)
                (trace (SyncFromDate.refresh frm))
     = negb (Js.to_boolean (is_new frm))
  /\ (forall d : Js.object,
         buttons (trace (SyncFromDate.refresh
                           {| is_new := is_new frm; doc := d |}))
         = buttons (trace (SyncFromDate.refresh frm))).
Proof.
  repeat split; intros; rewrite !sync_from_date_refresh_cases; simpl;
    destruct (Js.to_boolean (is_new frm)); unfold has_button; simpl;
    rewrite ?String.eqb_refl; reflexivity.
Qed.

(** C7: clicking the Sync From Date button opens one prompt with exactly two
    fields: [from_date], a Date field with [reqd] set whose default is
    [add_days(get_today(), -7)], and [advance_cursor], a Check field without
    [reqd] whose default is [0]. *)
Theorem sync_from_date_prompt_fields (frm : Form) (w : World) :
  Js.to_boolean (is_new frm) = false ->
  exists from_date advance_cursor : Js.object,
    option_map (fun m => prompts (trace m))
               (SyncFromDateSession.clicked frm w)
    = Some [[from_date; advance_cursor]]
    /\ Js.lookup "fieldname" from_date = Js.Str "from_date"
    /\ Js.lookup "fieldtype" from_date = Js.Str "Date"
    /\ Js.to_boolean (Js.lookup "reqd" from_date) = true
    /\ Js.lookup "default" from_date
       = Js.Str (add_days (get_today w) (-7))
    /\ Js.lookup "fieldname" advance_cursor = Js.Str "advance_cursor"
    /\ Js.lookup "fieldtype" advance_cursor = Js.Str "Check"
    /\ Js.to_boolean (Js.lookup "reqd" advance_cursor) = false
    /\ Js.lookup "default" advance_cursor = Js.Number 0
    /\ Js.to_boolean (Js.lookup "default" advance_cursor) = false.
Proof.
  intros Hnew. rewrite sync_from_date_clicked by assumption.
  do 2 eexists. split; [reflexivity |].
  repeat split.
Qed.

(** C1: when the prompt is confirmed with [from_date = "2024-01-01"] and
    the flag unchecked (falsy), the script makes one remote call, to
    [sync_from_date], whose arguments are exactly
    [{from_date: "2024-01-01", advance_cursor: 0}]: these two keys and no
    other. *)
Theorem sync_from_date_sends_exact_args
    (frm : Form) (w : World) (values : Js.object) :
  Js.to_boolean (is_new frm) = false ->
  Js.lookup "from_date" values = Js.Str "2024-01-01" ->
  Js.to_boolean (Js.lookup "advance_cursor" values) = false ->
  exists q : Request,
    option_map (fun m => requests (trace m))
               (SyncFromDateSession.confirmed frm w values)
    = Some [q]
    /\ req_method q = "moola_integration.api.sync_from_date"
    /\ req_args q = Some [("from_date", Js.Str "2024-01-01");
                          ("advance_cursor", Js.Number 0)]
    /\ option_map keys (req_args q) = Some ["from_date"; "advance_cursor"].
Proof.
  intros Hnew Hdate Hflag.
  rewrite sync_from_date_confirmed by assumption.
  eexists. split; [reflexivity |]. simpl.
  unfold SyncFromDate.call_args. rewrite Hdate, Hflag.
  repeat split.
Qed.

(** C2: the [advance_cursor] argument of the remote call is the number 1
    when the prompt's flag is truthy and the number 0 when it is falsy; it
    is never a boolean. *)
Theorem sync_from_date_flag_is_integer
    (frm : Form) (w : World) (values : Js.object) :
  Js.to_boolean (is_new frm) = false ->
  exists (q : Request) (args : Js.object),
    option_map (fun m => requests (trace m))
               (SyncFromDateSession.confirmed frm w values)
    = Some [q]
    /\ req_args q = Some args
    /\ Js.lookup "advance_cursor" args
       = (if Js.to_boolean (Js.lookup "advance_cursor" values)
          then Js.Number 1 else Js.Number 0)
    /\ Js.is_boolean (Js.lookup "advance_cursor" args) = false
    /\ (forall b : bool, Js.lookup "advance_cursor" args <> Js.Boolean b).
Proof.
  intros Hnew.
  rewrite sync_from_date_confirmed by assumption.
  do 2 eexists. split; [reflexivity |]. split; [reflexivity |].
  simpl.
  destruct (Js.to_boolean (Js.lookup "advance_cursor" values));
    repeat split; intros b; discriminate.
Qed.

(** C5: when the response carries a result payload ([r.message] truthy),
    the callback reads [fetched], [created], [skipped] and [errors] from it,
    shows one message, the summary template filled with these four values
    in this order, then reloads the document, and returns normally. *)
Theorem sync_from_date_summary_then_reload
    (frm : Form) (w : World) (values r : Js.object) :
  Js.to_boolean (is_new frm) = false ->
  Js.to_boolean (Js.lookup "message" r) = true ->
  exists fetched created skipped errors : Js.value,
    Js.get (Js.lookup "message" r) "fetched" = Some fetched
    /\ Js.get (Js.lookup "message" r) "created" = Some created
    /\ Js.get (Js.lookup "message" r) "skipped" = Some skipped
    /\ Js.get (Js.lookup "message" r) "errors" = Some errors
    /\ SyncFromDateSession.answered frm w values r
       = Some
           ([Msgprint
               (Js.Str
                  (translate
                     "Sync complete.<br>Fetched: {0}<br>Created JE: {1}<br>Skipped: {2}<br>Errors: {3}"
                     (Some [fetched; created; skipped; errors])));
             ReloadDoc],
            Some tt).
Proof.
  intros Hnew Hm.
  rewrite sync_from_date_answered by assumption.
  unfold SyncFromDate.callback, get_prop. rewrite Hm.
  destruct (get_truthy _ "fetched" Hm) as [f Hf].
  destruct (get_truthy _ "created" Hm) as [c Hc].
  destruct (get_truthy _ "skipped" Hm) as [s Hs].
  destruct (get_truthy _ "errors" Hm) as [e He].
  exists f, c, s, e. rewrite Hf, Hc, Hs, He. repeat split.
Qed.

(** C9: when [r.message] is absent or otherwise falsy, the Sync From Date
    callback makes no framework call at all: it shows no message, does not
    reload, and returns normally.  The Sync Now callback shows "Done" on the
    same response. *)
Theorem sync_from_date_silent_without_payload
    (frm : Form) (w : World) (values r : Js.object) :
  Js.to_boolean (is_new frm) = false ->
  Js.to_boolean (Js.lookup "message" r) = false ->
  exists m : M unit,
    SyncFromDateSession.answered frm w values r = Some m
    /\ trace m = []
    /\ displayed (trace m) = []
    /\ reloads (trace m) = false
    /\ result m = Some tt
    /\ displayed (trace (SyncNow.callback r)) = [Js.Str "Done"].
Proof.
  intros Hnew Hm.
  rewrite sync_from_date_answered by assumption.
  unfold SyncFromDate.callback. rewrite Hm.
  eexists. split; [reflexivity |]. repeat split.
  unfold SyncNow.callback. now rewrite (or_falsy _ _ Hm).
Qed.

(** C8: every remote call either script can come to make, after any clicks,
    confirmations and responses, sets [freeze: true].  A call of the Sync
    Now script carries no freeze message and no arguments.  A call of the
    Sync From Date script is the one made on confirming the prompt with
    some values, and whatever values the user confirms, the call made for
    them carries the freeze message built from their [from_date], the very
    date it sends. *)
Theorem every_call_freezes
    (frm : Form) (w : World) (values : Js.object) (c : Cmd) (q : Request) :
  request_of c = Some q ->
  (issues (trace (SyncNow.refresh frm)) c ->
   req_freeze q = Js.Boolean true
   /\ req_freeze_message q = None
   /\ req_method q = "moola_integration.api.sync_now"
   /\ req_args q = None)
  /\ (issues (trace (SyncFromDate.refresh frm)) c ->
      req_freeze q = Js.Boolean true
      /\ req_method q = "moola_integration.api.sync_from_date"
      /\ exists (w' : World) (values' : Js.object),
           option_map (fun m => requests (trace m))
                      (SyncFromDateSession.confirmed frm w' values')
           = Some [q]
           /\ req_freeze_message q
              = Some (translate "Syncing from {0}…"
                                (Some [Js.lookup "from_date" values']))
           /\ option_map (Js.lookup "from_date") (req_args q)
              = Some (Js.lookup "from_date" values'))
  /\ (Js.to_boolean (is_new frm) = false ->
      option_map (fun m => requests (trace m))
                 (SyncFromDateSession.confirmed frm w values)
      = Some
          [ {| req_method := "moola_integration.api.sync_from_date";
               req_args := Some (SyncFromDate.call_args values);
               req_freeze := Js.Boolean true;
               req_freeze_message :=
                 Some (translate "Syncing from {0}…"
                                 (Some [Js.lookup "from_date" values])) |} ]).
Proof.
  intros Hq. split; [| split]; intros H.
  - rewrite sync_now_refresh_cases in H.
    destruct (negb _ && _); simpl in H; [| now apply issues_nil in H].
    issues_cases H; try discriminate.
    destruct Hl as [w0 H].
    issues_cases H.
    + injection Hq as <-. repeat split.
    + destruct Hl as [r H].
      issues_cases H. discriminate.
  - rewrite sync_from_date_refresh_cases in H.
    destruct (Js.to_boolean (is_new frm)) eqn:Hnew; simpl in H;
      [now apply issues_nil in H |].
    issues_cases H; try discriminate.
    destruct Hl as [w0 H].
    issues_cases H; try discriminate.
    destruct Hl as [values0 H].
    issues_cases H.
    + injection Hq as <-. simpl. repeat split.
      exists w0, values0.
      rewrite sync_from_date_confirmed by assumption.
      repeat split.
    + destruct Hl as [r H].
      destruct (sync_from_date_callback_cases frm r) as [E | [msg E]];
        rewrite E in H; simpl in H.
      * now apply issues_nil in H.
      * issues_cases H; discriminate.
  - rewrite sync_from_date_confirmed by assumption. reflexivity.
Qed.

End SyncFromDateFacts.

(** ** The scripts on the sample inputs, over the reference framework *)

Example reference_add_days :
  Reference.add_days "2024-01-08" (-7) = "2024-01-01"
  /\ Reference.add_days "2024-03-05" (-7) = "2024-02-27"
  /\ Reference.add_days "2023-01-03" (-7) = "2022-12-27".
Proof. repeat split. Qed.

Lemma sync_from_date_prompt_fields_witness :
  Js.to_boolean (is_new Sample.saved_enabled) = false
  /\ exists from_date advance_cursor : Js.object,
       option_map (fun m => prompts (trace m))
                  (SyncFromDateSession.clicked (frappe := Reference.frappe)
                     Sample.saved_enabled Sample.world)
       = Some [[from_date; advance_cursor]]
       /\ Js.lookup "default" from_date = Js.Str "2024-01-01"
       /\ Js.lookup "default" advance_cursor = Js.Number 0.
Proof.
  split; [reflexivity |].
  destruct (sync_from_date_prompt_fields (frappe := Reference.frappe)
              Sample.saved_enabled Sample.world eq_refl)
    as (f1 & f2 & Hp & _ & _ & _ & Hd1 & _ & _ & _ & Hd2 & _).
  exists f1, f2. split; [exact Hp |]. split; [| exact Hd2].
  rewrite Hd1. reflexivity.
Defined.

Lemma sync_from_date_sends_exact_args_witness :
  Js.to_boolean (is_new Sample.saved_enabled) = false
  /\ Js.lookup "from_date" Sample.unchecked = Js.Str "2024-01-01"
  /\ Js.to_boolean (Js.lookup "advance_cursor" Sample.unchecked) = false
  /\ exists q : Request,
       option_map (fun m => requests (trace m))
                  (SyncFromDateSession.confirmed (frappe := Reference.frappe)
                     Sample.saved_enabled Sample.world Sample.unchecked)
       = Some [q]
       /\ req_args q = Some [("from_date", Js.Str "2024-01-01");
                             ("advance_cursor", Js.Number 0)].
Proof.
  repeat (split; [reflexivity |]).
  destruct (sync_from_date_sends_exact_args (frappe := Reference.frappe)
              Sample.saved_enabled Sample.world Sample.unchecked
              eq_refl eq_refl eq_refl)
    as (q & Hq & _ & Ha & _).
  exists q. split; assumption.
Defined.

Lemma sync_from_date_flag_is_integer_witness :
  Js.to_boolean (is_new Sample.saved_enabled) = false
  /\ exists (q : Request) (args : Js.object),
       option_map (fun m => requests (trace m))
                  (SyncFromDateSession.confirmed (frappe := Reference.frappe)
                     Sample.saved_enabled Sample.world Sample.checked)
       = Some [q]
       /\ req_args q = Some args
       /\ Js.lookup "advance_cursor" args = Js.Number 1.
Proof.
  split; [reflexivity |].
  destruct (sync_from_date_flag_is_integer (frappe := Reference.frappe)
              Sample.saved_enabled Sample.world Sample.checked eq_refl)
    as (q & args & Hq & Ha & Hf & _).
  exists q, args. repeat split; assumption.
Defined.

Lemma sync_from_date_summary_then_reload_witness :
  Js.to_boolean (is_new Sample.saved_enabled) = false
  /\ Js.to_boolean (Js.lookup "message" Sample.counters) = true
  /\ SyncFromDateSession.answered (frappe := Reference.frappe)
       Sample.saved_enabled Sample.world Sample.unchecked Sample.counters
     = Some
         ([Msgprint
             (Js.Str
                "Sync complete.<br>Fetched: 10<br>Created JE: 8<br>Skipped: 1<br>Errors: 1");
           ReloadDoc],
          Some tt).
Proof.
  repeat (split; [reflexivity |]).
  destruct (sync_from_date_summary_then_reload (frappe := Reference.frappe)
              Sample.saved_enabled Sample.world Sample.unchecked
              Sample.counters eq_refl eq_refl)
    as (f & c & s & e & Hf & Hc & Hs & He & H).
  rewrite H.
  injection Hf as <-. injection Hc as <-.
  injection Hs as <-. injection He as <-.
  reflexivity.
Defined.

Lemma sync_from_date_silent_without_payload_witness :
  Js.to_boolean (is_new Sample.saved_enabled) = false
  /\ Js.to_boolean (Js.lookup "message" Sample.no_message) = false
  /\ SyncFromDateSession.answered (frappe := Reference.frappe)
       Sample.saved_enabled Sample.world Sample.unchecked Sample.no_message
     = Some ([], Some tt).
Proof.
  repeat (split; [reflexivity |]).
  destruct (sync_from_date_silent_without_payload
              (frappe := Reference.frappe)
              Sample.saved_enabled Sample.world Sample.unchecked
              Sample.no_message eq_refl eq_refl)
    as ([t [[] |]] & H & Ht & _ & _ & Hr & _);
    simpl in Ht, Hr; try discriminate Hr.
  subst t. exact H.
Defined.

Lemma every_call_freezes_witness :
  let now :=
    Call "moola_integration.api.sync_now" None (Js.Boolean true) None
         SyncNow.callback in
  let from_date :=
    Call "moola_integration.api.sync_from_date"
         (Some [("from_date", Js.Str "2024-01-01");
                ("advance_cursor", Js.Number 0)])
         (Js.Boolean true) (Some "Syncing from 2024-01-01…")
         (SyncFromDate.callback (frappe := Reference.frappe)
                                Sample.saved_enabled) in
  let q_now :=
    {| req_method := "moola_integration.api.sync_now";
       req_args := None;
       req_freeze := Js.Boolean true;
       req_freeze_message := None |} in
  let q_from_date :=
    {| req_method := "moola_integration.api.sync_from_date";
       req_args := Some [("from_date", Js.Str "2024-01-01");
                         ("advance_cursor", Js.Number 0)];
       req_freeze := Js.Boolean true;
       req_freeze_message := Some "Syncing from 2024-01-01…" |} in
  (request_of now = Some q_now
   /\ issues (trace (SyncNow.refresh Sample.saved_enabled)) now
   /\ req_freeze q_now = Js.Boolean true
   /\ req_freeze_message q_now = None)
  /\ (request_of from_date = Some q_from_date
      /\ issues (trace (SyncFromDate.refresh (frappe := Reference.frappe)
                                             Sample.saved_enabled)) from_date
      /\ req_freeze q_from_date = Js.Boolean true)
  /\ (Js.to_boolean (is_new Sample.saved_enabled) = false
      /\ option_map (fun m => requests (trace m))
                    (SyncFromDateSession.confirmed
                       (frappe := Reference.frappe)
                       Sample.saved_enabled Sample.world
                       Sample.with_extra_keys)
         = Some
             [ {| req_method := "moola_integration.api.sync_from_date";
                  req_args := Some [("from_date", Js.Str "2024-02-29");
                                    ("advance_cursor", Js.Number 1)];
                  req_freeze := Js.Boolean true;
                  req_freeze_message :=
                    Some "Syncing from 2024-02-29…" |} ]).
Proof.
  intros now from_date q_now q_from_date.
  assert (Hn : issues (trace (SyncNow.refresh Sample.saved_enabled)) now).
  { eapply issues_click with (w := Sample.world); [left; reflexivity |].
    apply issues_now. left. reflexivity. }
  assert (Hf : issues (trace (SyncFromDate.refresh
                                (frappe := Reference.frappe)
                                Sample.saved_enabled)) from_date).
  { eapply issues_click with (w := Sample.world); [left; reflexivity |].
    eapply issues_confirm with (values := Sample.unchecked);
      [left; reflexivity |].
    apply issues_now. left. reflexivity. }
  split; [| split].
  - split; [reflexivity |]. split; [assumption |].
    destruct (proj1 (every_call_freezes (frappe := Reference.frappe)
                       Sample.saved_enabled Sample.world
                       Sample.with_extra_keys now q_now eq_refl) Hn)
      as (H1 & H2 & _).
    split; assumption.
  - split; [reflexivity |]. split; [assumption |].
    exact (proj1 (proj1 (proj2 (every_call_freezes
                                  (frappe := Reference.frappe)
                                  Sample.saved_enabled Sample.world
                                  Sample.with_extra_keys from_date
                                  q_from_date eq_refl)) Hf)).
  - split; [reflexivity |].
    exact (proj2 (proj2 (every_call_freezes
                           (frappe := Reference.frappe)
                           Sample.saved_enabled Sample.world
                           Sample.with_extra_keys now q_now eq_refl))
                 eq_refl).
Defined.

(** The buttons each script adds in the three states of the form. *)
Example sample_buttons :
  map (fun frm => buttons (trace (SyncNow.refresh frm)))
      [Sample.saved_enabled; Sample.saved_disabled; Sample.unsaved]
  = [["Sync Now"]; []; []]
  /\ map (fun frm => buttons (trace (SyncFromDate.refresh
                                       (frappe := Reference.frappe) frm)))
         [Sample.saved_enabled; Sample.saved_disabled; Sample.unsaved]
     = [["Sync From Date"]; ["Sync From Date"]; []].
Proof. split; reflexivity. Qed.

(** An empty message text falls back to "Done" as an absent one does. *)
Example sample_empty_message :
  displayed (trace (SyncNow.callback Sample.empty_message)) = [Js.Str "Done"].
Proof. reflexivity. Qed.

(** * Further properties of the scripts *)

Lemma lookup_absent (k : string) (o : Js.object) :
  ~ In k (keys o) -> Js.lookup k o = Js.Undefined.
Proof.
  induction o as [| [k' v] o IH]; simpl; intros H; [reflexivity |].
  destruct (String.eqb_spec k' k) as [-> | _].
  - exfalso. apply H. now left.
  - apply IH. intros Hin. apply H. now right.
Qed.

Lemma or_always_truthy (a b : Js.value) :
  Js.to_boolean b = true -> Js.to_boolean (Js.or a b) = true.
Proof.
  intros Hb. unfold Js.or.
  destruct (Js.to_boolean a) eqn:Ha; assumption.
Qed.

(** ** Sync Now *)

(** Whatever the server answers, the Sync Now callback opens exactly one
    message box: it holds the server's message itself when that is truthy
    and "Done" otherwise, so its content is always truthy (never an empty
    text, [undefined], [null], [0] or [false]).  The callback does not
    reload the document and returns normally. *)
Theorem sync_now_always_one_truthy_message (r : Js.object) :
  exists msg : Js.value,
    SyncNow.callback r = ([Msgprint msg], Some tt)
    /\ msg = (if Js.to_boolean (Js.lookup "message" r)
              then Js.lookup "message" r else Js.Str "Done")
    /\ Js.to_boolean msg = true
    /\ displayed (trace (SyncNow.callback r)) = [msg]
    /\ reloads (trace (SyncNow.callback r)) = false.
Proof.
  exists (Js.or (Js.lookup "message" r) (Js.Str "Done")).
  split; [reflexivity |]. split; [reflexivity |].
  split; [now apply or_always_truthy |].
  split; reflexivity.
Qed.

(** The Sync Now button is the only way into the script: when the record is
    new or not enabled, the refresh leaves nothing to click, so no remote
    call, message or any other framework call can follow it. *)
Theorem sync_now_nothing_without_button (frm : Form) (w : World) (c : Cmd) :
  Js.to_boolean (is_new frm) = true
  \/ Js.to_boolean (Js.lookup "enabled" (doc frm)) = false ->
  SyncNowSession.clicked frm w = None
  /\ ~ issues (trace (SyncNow.refresh frm)) c.
Proof.
  intros H. unfold SyncNowSession.clicked.
  rewrite sync_now_refresh_cases.
  assert (E : negb (Js.to_boolean (is_new frm))
              && Js.to_boolean (Js.lookup "enabled" (doc frm)) = false).
  { destruct H as [-> | ->]; [reflexivity | apply andb_false_r]. }
  rewrite E. split; [reflexivity | apply issues_nil].
Qed.

Lemma sync_now_nothing_without_button_witness :
  (Js.to_boolean (is_new Sample.unsaved) = true
   /\ ~ issues (trace (SyncNow.refresh Sample.unsaved)) ReloadDoc)
  /\ (Js.to_boolean (Js.lookup "enabled" (doc Sample.saved_disabled)) = false
      /\ SyncNowSession.clicked Sample.saved_disabled Sample.world = None).
Proof.
  split; (split; [reflexivity |]).
  - exact (proj2 (sync_now_nothing_without_button Sample.unsaved
                    Sample.world ReloadDoc (or_introl eq_refl))).
  - exact (proj1 (sync_now_nothing_without_button Sample.saved_disabled
                    Sample.world ReloadDoc (or_intror eq_refl))).
Defined.

(** A full Sync Now round: on a saved, enabled record one click makes
    exactly one remote call, to [sync_now], without arguments, and the
    answer to it ends the interaction: all that can follow a response is the
    one message box. *)
Theorem sync_now_round (frm : Form) (w : World) (r : Js.object) :
  Js.to_boolean (is_new frm) = false ->
  Js.to_boolean (Js.lookup "enabled" (doc frm)) = true ->
  option_map (fun m => requests (trace m)) (SyncNowSession.clicked frm w)
  = Some [ {| req_method := "moola_integration.api.sync_now";
              req_args := None;
              req_freeze := Js.Boolean true;
              req_freeze_message := None |} ]
  /\ exists m : M unit,
       SyncNowSession.answered frm w r = Some m
       /\ forall c, issues (trace m) c ->
                    c = Msgprint (Js.or (Js.lookup "message" r)
                                        (Js.Str "Done")).
Proof.
  intros Hnew Hen. split.
  - unfold SyncNowSession.clicked.
    rewrite sync_now_refresh_cases, Hnew, Hen. reflexivity.
  - exists (SyncNow.callback r).
    split; [now apply sync_now_answered |].
    intros c H. simpl in H. issues_cases H. reflexivity.
Qed.

Lemma sync_now_round_witness :
  Js.to_boolean (is_new Sample.saved_enabled) = false
  /\ Js.to_boolean (Js.lookup "enabled" (doc Sample.saved_enabled)) = true
  /\ option_map (fun m => requests (trace m))
                (SyncNowSession.clicked Sample.saved_enabled Sample.world)
     = Some [ {| req_method := "moola_integration.api.sync_now";
                 req_args := None;
                 req_freeze := Js.Boolean true;
                 req_freeze_message := None |} ].
Proof.
  repeat (split; [reflexivity |]).
  exact (proj1 (sync_now_round Sample.saved_enabled Sample.world
                  Sample.all_good eq_refl eq_refl)).
Defined.

(** ** Sync From Date *)

Section SyncFromDateFurther.

Context {frappe : Frappe}.

(** Whatever the prompt hands over, the remote call gets exactly the two
    keys [from_date] and [advance_cursor]: [from_date] is the prompt's value
    unchanged ([undefined] when it is missing), [advance_cursor] has the
    truth value of the prompt's flag, and no other prompt value is passed
    on. *)
Theorem sync_from_date_args_pass_through
    (frm : Form) (w : World) (values : Js.object) :
  Js.to_boolean (is_new frm) = false ->
  exists (q : Request) (args : Js.object),
    option_map (fun m => requests (trace m))
               (SyncFromDateSession.confirmed frm w values)
    = Some [q]
    /\ req_args q = Some args
    /\ keys args = ["from_date"; "advance_cursor"]
    /\ Js.lookup "from_date" args = Js.lookup "from_date" values
    /\ Js.to_boolean (Js.lookup "advance_cursor" args)
       = Js.to_boolean (Js.lookup "advance_cursor" values)
    /\ (forall k : string,
           k <> "from_date" -> k <> "advance_cursor" ->
           Js.lookup k args = Js.Undefined).
Proof.
  intros Hnew.
  rewrite sync_from_date_confirmed by assumption.
  do 2 eexists. split; [reflexivity |]. split; [reflexivity |].
  split; [reflexivity |]. split; [reflexivity |]. split.
  - simpl. now destruct (Js.to_boolean (Js.lookup "advance_cursor" values)).
  - intros k H1 H2. apply lookup_absent. simpl. intuition congruence.
Qed.

(** On a new record the refresh leaves nothing to click, so no prompt,
    remote call, message or any other framework call can follow it. *)
Theorem sync_from_date_nothing_when_unsaved
    (frm : Form) (w : World) (c : Cmd) :
  Js.to_boolean (is_new frm) = true ->
  SyncFromDateSession.clicked frm w = None
  /\ ~ issues (trace (SyncFromDate.refresh frm)) c.
Proof.
  intros Hnew. unfold SyncFromDateSession.clicked.
  rewrite sync_from_date_refresh_cases, Hnew.
  split; [reflexivity | apply issues_nil].
Qed.


(** The response callback never throws, whatever the response holds: it
    reads the counters only from a truthy payload.  It reloads the document
    exactly when the payload is truthy, and shows one message then and none
    otherwise. *)
Theorem sync_from_date_callback_never_throws (frm : Form) (r : Js.object) :
  result (SyncFromDate.callback frm r) = Some tt
  /\ reloads (trace (SyncFromDate.callback frm r))
     = Js.to_boolean (Js.lookup "message" r)
  /\ List.length (displayed (trace (SyncFromDate.callback frm r)))
     = (if Js.to_boolean (Js.lookup "message" r) then 1%nat else 0%nat).
Proof.
  unfold SyncFromDate.callback, get_prop.
  destruct (Js.to_boolean (Js.lookup "message" r)) eqn:Hm;
    [| repeat split].
  destruct (get_truthy _ "fetched" Hm) as [f ->].
  destruct (get_truthy _ "created" Hm) as [c ->].
  destruct (get_truthy _ "skipped" Hm) as [s ->].
  destruct (get_truthy _ "errors" Hm) as [e ->].
  repeat split.
Qed.

(** A truthy payload that holds none of the four counters (a text, a
    number, [true], or an object without these keys) is not told apart from
    a result: the callback fills the summary with four [undefined] values,
    shows it and reloads the document. *)
Theorem sync_from_date_payload_without_counters
    (frm : Form) (r : Js.object) :
  Js.to_boolean (Js.lookup "message" r) = true ->
  (forall o : Js.object,
      Js.lookup "message" r = Js.Object o ->
      forall k : string,
        In k ["fetched"; "created"; "skipped"; "errors"] ->
        ~ In k (keys o)) ->
  SyncFromDate.callback frm r
  = ([Msgprint
        (Js.Str
           (translate
              "Sync complete.<br>Fetched: {0}<br>Created JE: {1}<br>Skipped: {2}<br>Errors: {3}"
              (Some [Js.Undefined; Js.Undefined; Js.Undefined;
                     Js.Undefined])));
      ReloadDoc],
     Some tt).
Proof.
  intros Hm Hkeys.
  assert (Hget : forall k,
             In k ["fetched"; "created"; "skipped"; "errors"] ->
             Js.get (Js.lookup "message" r) k = Some Js.Undefined).
  { intros k Hk.
    destruct (Js.lookup "message" r) as [ | | b | n | | s | o ] eqn:E;
      simpl in Hm; try discriminate; try reflexivity.
    simpl. f_equal. apply lookup_absent. now apply (Hkeys o). }
  unfold SyncFromDate.callback, get_prop. rewrite Hm.
  rewrite !Hget by (simpl; auto).
  reflexivity.
Qed.

(** Whenever the Sync Now script shows its button, the Sync From Date script
    shows its own on the same form; the converse fails on a saved record
    that is not enabled. *)
Theorem sync_now_button_implies_sync_from_date_button :
  (forall frm : Form,
      has_button "Sync Now" (trace (SyncNow.refresh frm)) = true ->
      has_button (translate "Sync From Date" None)
                 (trace (SyncFromDate.refresh frm)) = true)
  /\ (exists frm : Form,
         has_button (translate "Sync From Date" None)
                    (trace (SyncFromDate.refresh frm)) = true
         /\ has_button "Sync Now" (trace (SyncNow.refresh frm)) = false).
Proof.
  split.
  - intros frm. rewrite sync_now_refresh_cases, sync_from_date_refresh_cases.
    unfold has_button.
    destruct (Js.to_boolean (is_new frm)); simpl; [discriminate |].
    now rewrite String.eqb_refl.
  - exists Sample.saved_disabled.
    rewrite sync_from_date_refresh_cases. unfold has_button. simpl.
    now rewrite String.eqb_refl.
Qed.

(** The class [btn-primary] goes to the button the Sync From Date refresh
    has just added and to nothing else; no class is added when no button
    is.  The Sync Now refresh adds no class. *)
Theorem only_sync_from_date_button_is_primary (frm : Form) (b : string) :
  classes b (trace (SyncFromDate.refresh frm))
  = (if has_button b (trace (SyncFromDate.refresh frm))
     then ["btn-primary"] else [])
  /\ classes b (trace (SyncNow.refresh frm)) = [].
Proof.
  rewrite sync_from_date_refresh_cases, sync_now_refresh_cases.
  split.
  - destruct (Js.to_boolean (is_new frm)); unfold has_button; simpl;
      [reflexivity |].
    rewrite (String.eqb_sym b).
    now destruct (translate "Sync From Date" None =? b)%string.
  - now destruct (negb _ && _).
Qed.

End SyncFromDateFurther.

(** ** The further properties on the sample inputs *)

Lemma sync_from_date_args_pass_through_witness :
  Js.to_boolean (is_new Sample.saved_disabled) = false
  /\ exists (q : Request) (args : Js.object),
       option_map (fun m => requests (trace m))
                  (SyncFromDateSession.confirmed (frappe := Reference.frappe)
                     Sample.saved_disabled Sample.world
                     Sample.with_extra_keys)
       = Some [q]
       /\ req_args q = Some args
       /\ keys args = ["from_date"; "advance_cursor"]
       /\ Js.lookup "from_date" args = Js.Str "2024-02-29"
       /\ Js.lookup "note" args = Js.Undefined.
Proof.
  split; [reflexivity |].
  destruct (sync_from_date_args_pass_through (frappe := Reference.frappe)
              Sample.saved_disabled Sample.world Sample.with_extra_keys
              eq_refl)
    as (q & args & Hq & Ha & Hk & Hd & _ & Hno).
  exists q, args.
  split; [exact Hq |]. split; [exact Ha |]. split; [exact Hk |].
  split; [exact Hd |].
  apply Hno; discriminate.
Defined.

Lemma sync_from_date_nothing_when_unsaved_witness :
  Js.to_boolean (is_new Sample.unsaved) = true
  /\ SyncFromDateSession.clicked (frappe := Reference.frappe)
       Sample.unsaved Sample.world = None.
Proof.
  split; [reflexivity |].
  exact (proj1 (sync_from_date_nothing_when_unsaved
                  (frappe := Reference.frappe)
                  Sample.unsaved Sample.world ReloadDoc eq_refl)).
Defined.


Lemma sync_from_date_payload_without_counters_witness :
  Js.to_boolean (Js.lookup "message" Sample.text_payload) = true
  /\ (forall o : Js.object,
         Js.lookup "message" Sample.text_payload = Js.Object o ->
         forall k : string,
           In k ["fetched"; "created"; "skipped"; "errors"] ->
           ~ In k (keys o))
  /\ SyncFromDate.callback (frappe := Reference.frappe)
       Sample.saved_enabled Sample.text_payload
     = ([Msgprint
           (Js.Str
              "Sync complete.<br>Fetched: {0}<br>Created JE: {1}<br>Skipped: {2}<br>Errors: {3}");
         ReloadDoc],
        Some tt).
Proof.
  assert (H : forall o : Js.object,
             Js.lookup "message" Sample.text_payload = Js.Object o ->
             forall k : string,
               In k ["fetched"; "created"; "skipped"; "errors"] ->
               ~ In k (keys o))
    by (intros o E; discriminate E).
  split; [reflexivity |]. split; [exact H |].
  rewrite (sync_from_date_payload_without_counters
             (frappe := Reference.frappe)
             Sample.saved_enabled Sample.text_payload eq_refl H).
  reflexivity.
Defined.

Lemma sync_now_button_implies_sync_from_date_button_witness :
  has_button "Sync Now" (trace (SyncNow.refresh Sample.saved_enabled)) = true
  /\ has_button "Sync From Date"
                (trace (SyncFromDate.refresh (frappe := Reference.frappe)
                                             Sample.saved_enabled))
     = true.
Proof.
  split; [reflexivity |].
  exact (proj1 (sync_now_button_implies_sync_from_date_button
                  (frappe := Reference.frappe))
               Sample.saved_enabled eq_refl).
Defined.

(** A payload with only some of the counters: the missing ones stay
    [undefined], which the reference formatter leaves as placeholders. *)
Example sample_partial_payload :
  SyncFromDate.callback (frappe := Reference.frappe)
    Sample.saved_enabled Sample.partial_payload
  = ([Msgprint
        (Js.Str
           "Sync complete.<br>Fetched: 3<br>Created JE: {1}<br>Skipped: {2}<br>Errors: {3}");
      ReloadDoc],
     Some tt).
Proof. reflexivity. Qed.
